(** * The FastAPI todo service of [main.py]: model and verified properties

    The service keeps a module-level Python list [all_todos] of pydantic
    [Todo] objects and exposes five route handlers over it.  The handlers
    are embedded as state-passing functions over that list; pydantic's
    class declarations are embedded as field tables from which the
    validation of a request body is computed. *)

From Stdlib Require Import ZArith List String Bool Lia.
Import ListNotations.

Local Open Scope string_scope.
Local Open Scope Z_scope.
Local Open Scope list_scope.

(** ** Python values *)

(** [class PriorityLevel(IntEnum)]: LOW = 3, MEDIUM = 2, HIGH = 1. *)
Inductive PriorityLevel : Type :=
| LOW
| MEDIUM
| HIGH.

Definition PriorityLevel_value (p : PriorityLevel) : Z :=
  match p with
  | LOW => 3
  | MEDIUM => 2
  | HIGH => 1
  end.

(** Enum lookup by value, [PriorityLevel(z)]. *)
Definition PriorityLevel_of_value (z : Z) : option PriorityLevel :=
  if z =? 3 then Some LOW
  else if z =? 2 then Some MEDIUM
  else if z =? 1 then Some HIGH
  else None.

(** The Python values that occur in the declarations and in request
    bodies. *)
Inductive pyval : Type :=
| PyNone
| PyEllipsis
| PyBool (b : bool)
| PyInt (z : Z)
| PyStr (s : string)
| PyPriority (p : PriorityLevel).

(** Keyword arguments and JSON objects: names bound to values, in order. *)
Definition pydict : Type := list (string * pyval).

Fixpoint lookup {A : Type} (name : string) (d : list (string * A)) : option A :=
  match d with
  | [] => None
  | (k, v) :: d' => if String.eqb k name then Some v else lookup name d'
  end.

(** Python truthiness of an optional integer argument ([None] and [0] are
    falsy). *)
Definition truthy (n : option Z) : bool :=
  match n with
  | None => false
  | Some z => negb (z =? 0)
  end.

(** [l[:stop]]: a negative [stop] counts from the end, and both ends are
    clamped to the list. *)
Definition slice_stop (len stop : Z) : Z :=
  if stop <? 0 then Z.max (stop + len) 0 else Z.min stop len.

Definition slice_to {A : Type} (l : list A) (stop : Z) : list A :=
  firstn (Z.to_nat (slice_stop (Z.of_nat (List.length l)) stop)) l.

(** [l.pop(index)] for an index inside the list: the element and the list
    without it. *)
Fixpoint pop {A : Type} (index : nat) (l : list A) : option (A * list A) :=
  match l, index with
  | [], _ => None
  | x :: l', O => Some (x, l')
  | x :: l', S i =>
      match pop i l' with
      | Some (y, r) => Some (y, x :: r)
      | None => None
      end
  end.

(** ** pydantic: field declarations and validation *)

Inductive annotation : Type :=
| Str
| Int
| Bool_
| Priority
| Optional (a : annotation).

(** What [Field(...)] records.  [default = None] is pydantic's undefined
    default: the field is required. *)
Record FieldInfo : Type := mkFieldInfo {
  default : option pyval;
  min_length : option Z;
  max_length : option Z;
  description : option string;
  extra : pydict
}.

Definition known_kwarg (k : string) : bool :=
  String.eqb k "default" || String.eqb k "min_length"
  || String.eqb k "max_length" || String.eqb k "description".

(** pydantic's [Field] applied to positional and keyword arguments.  The
    default is the first positional argument
    or the keyword [default]; [...] stands for "required".  Keywords that
    [Field] does not know are only kept aside in [extra]. *)
Definition Field (args : list pyval) (kwargs : pydict) : FieldInfo :=
  let d := match args with
           | v :: _ => Some v
           | [] => lookup "default" kwargs
           end in
  {| default := match d with
                | Some PyEllipsis => None
                | _ => d
                end;
     min_length := match lookup "min_length" kwargs with
                   | Some (PyInt n) => Some n
                   | _ => None
                   end;
     max_length := match lookup "max_length" kwargs with
                   | Some (PyInt n) => Some n
                   | _ => None
                   end;
     description := match lookup "description" kwargs with
                    | Some (PyStr s) => Some s
                    | _ => None
                    end;
     extra := filter (fun kv => negb (known_kwarg (fst kv))) kwargs |}.

(** A class attribute [name: T = v] without [Field]. *)
Definition plain (v : pyval) : FieldInfo := Field [v] [].

(** A model class: its fields in declaration order. *)
Definition model : Type := list (string * (annotation * FieldInfo)).

Fixpoint override (name : string) (f : annotation * FieldInfo) (m : model) : model :=
  match m with
  | [] => [(name, f)]
  | (n, g) :: m' =>
      if String.eqb n name then (n, f) :: m' else (n, g) :: override name f m'
  end.

(** [class C(parent)]: a field declared again in [C] replaces the parent's
    declaration as a whole (annotation, default and constraints); new
    fields come after the inherited ones. *)
Definition subclass (parent own : model) : model :=
  fold_left (fun m nf => override (fst nf) (snd nf) m) own parent.

Inductive error_type : Type :=
| missing
| wrong_type
| string_too_short
| string_too_long.

Definition errors : Type := list (string * error_type).

Inductive validated (A : Type) : Type :=
| Valid (a : A)
| Invalid (e : errors).
Arguments Valid {A} a.
Arguments Invalid {A} e.

(** Conversion of an input value to the annotated type.  Inputs are taken
    as already decoded JSON; an integer is accepted for the enum when it is
    one of its values. *)
Fixpoint validate_annotation (a : annotation) (v : pyval) : option pyval :=
  match a, v with
  | Str, PyStr s => Some (PyStr s)
  | Int, PyInt z => Some (PyInt z)
  | Bool_, PyBool b => Some (PyBool b)
  | Priority, PyPriority p => Some (PyPriority p)
  | Priority, PyInt z =>
      match PriorityLevel_of_value z with
      | Some p => Some (PyPriority p)
      | None => None
      end
  | Optional _, PyNone => Some PyNone
  | Optional a', _ => validate_annotation a' v
  | _, _ => None
  end.

(** [len(s)]: the number of characters; a [str] is modelled as its
    sequence of characters. *)
Definition len (s : string) : Z := Z.of_nat (String.length s).

Definition check_length (fi : FieldInfo) (v : pyval) : option error_type :=
  match v with
  | PyStr s =>
      match min_length fi with
      | Some lo => if len s <? lo then Some string_too_short else
          match max_length fi with
          | Some hi => if hi <? len s then Some string_too_long else None
          | None => None
          end
      | None =>
          match max_length fi with
          | Some hi => if hi <? len s then Some string_too_long else None
          | None => None
          end
      end
  | _ => None
  end.

(** One field of a model against the input: an absent field takes its
    default (which is not validated) or is reported missing. *)
Definition validate_field (f : annotation * FieldInfo) (input : option pyval)
  : error_type + pyval :=
  match input with
  | None =>
      match default (snd f) with
      | Some d => inr d
      | None => inl missing
      end
  | Some v =>
      match validate_annotation (fst f) v with
      | None => inl wrong_type
      | Some v' =>
          match check_length (snd f) v' with
          | Some e => inl e
          | None => inr v'
          end
      end
  end.

(** The whole model: every field is validated and all errors are
    collected; names of the input that are not fields are ignored. *)
Fixpoint validate_model (m : model) (data : pydict) : validated pydict :=
  match m with
  | [] => Valid []
  | (name, f) :: m' =>
      match validate_field f (lookup name data), validate_model m' data with
      | inr v, Valid d => Valid ((name, v) :: d)
      | inr _, Invalid e => Invalid e
      | inl e, Valid _ => Invalid [(name, e)]
      | inl e, Invalid e' => Invalid ((name, e) :: e')
      end
  end.

(** Attributes of a validated object, read back at their Python type. *)
Definition attr_str (name : string) (d : pydict) : option string :=
  match lookup name d with
  | Some (PyStr s) => Some s
  | _ => None
  end.

Definition attr_int (name : string) (d : pydict) : option Z :=
  match lookup name d with
  | Some (PyInt z) => Some z
  | _ => None
  end.

Definition attr_bool (name : string) (d : pydict) : option bool :=
  match lookup name d with
  | Some (PyBool b) => Some b
  | _ => None
  end.

Definition attr_priority (name : string) (d : pydict) : option PriorityLevel :=
  match lookup name d with
  | Some (PyPriority p) => Some p
  | _ => None
  end.

(** An [Optional] attribute: [None] or a value of the inner type. *)
Definition attr_optional {A : Type} (inner : string -> pydict -> option A)
  (name : string) (d : pydict) : option (option A) :=
  match lookup name d with
  | Some PyNone => Some None
  | Some _ =>
      match inner name d with
      | Some a => Some (Some a)
      | None => None
      end
  | None => None
  end.

(** ** The model classes of [main.py] *)

Module TodoBase.

Definition fields : model :=
  [ ("todo_name",
     (Str, Field [PyEllipsis]
             [("min_length", PyInt 2); ("max_length", PyInt 150);
              ("description", PyStr "Name of the todo task")]));
    ("todo_description",
     (Str, Field [PyEllipsis]
             [("max_length", PyInt 300);
              ("description", PyStr "Description of the todo task")]));
    ("priority",
     (Priority, Field []
                  [("defaul", PyPriority LOW);
                   ("description", PyStr "Priority level of the todo task")]));
    ("completed",
     (Bool_, Field []
               [("default", PyBool false);
                ("description", PyStr "Status of the todo task")])) ].

End TodoBase.

Module TodoCreate.

(** [class TodoCreate(TodoBase): pass] *)
Definition fields : model := subclass TodoBase.fields [].

Record t : Type := mk {
  todo_name : string;
  todo_description : string;
  priority : PriorityLevel;
  completed : bool
}.

Definition of_dict (d : pydict) : option t :=
  match attr_str "todo_name" d, attr_str "todo_description" d,
        attr_priority "priority" d, attr_bool "completed" d with
  | Some n, Some de, Some p, Some c => Some (mk n de p c)
  | _, _, _, _ => None
  end.

(** The constructor called with keyword arguments [data]. *)
Definition new (data : pydict) : validated t :=
  match validate_model fields data with
  | Valid d =>
      match of_dict d with
      | Some x => Valid x
      | None => Invalid []
      end
  | Invalid e => Invalid e
  end.

End TodoCreate.

Module TodoUpdate.

(** [class TodoUpdate(TodoBase)] declares the four fields again, each as
    [Optional[...] = None]. *)
Definition fields : model :=
  subclass TodoBase.fields
    [ ("todo_name", (Optional Str, plain PyNone));
      ("todo_description", (Optional Str, plain PyNone));
      ("priority", (Optional Priority, plain PyNone));
      ("completed", (Optional Bool_, plain PyNone)) ].

Record t : Type := mk {
  todo_name : option string;
  todo_description : option string;
  priority : option PriorityLevel;
  completed : option bool
}.

Definition of_dict (d : pydict) : option t :=
  match attr_optional attr_str "todo_name" d,
        attr_optional attr_str "todo_description" d,
        attr_optional attr_priority "priority" d,
        attr_optional attr_bool "completed" d with
  | Some n, Some de, Some p, Some c => Some (mk n de p c)
  | _, _, _, _ => None
  end.

Definition new (data : pydict) : validated t :=
  match validate_model fields data with
  | Valid d =>
      match of_dict d with
      | Some x => Valid x
      | None => Invalid []
      end
  | Invalid e => Invalid e
  end.

End TodoUpdate.

Module Todo.

(** [class Todo(TodoBase)] adds the required [todo_id]. *)
Definition fields : model :=
  subclass TodoBase.fields
    [ ("todo_id",
       (Int, Field [PyEllipsis]
               [("description", PyStr "Unique identifier for the todo task")])) ].

Record t : Type := mk {
  todo_id : Z;
  todo_name : string;
  todo_description : string;
  priority : PriorityLevel;
  completed : bool
}.

Definition of_dict (d : pydict) : option t :=
  match attr_int "todo_id" d, attr_str "todo_name" d,
        attr_str "todo_description" d,
        attr_priority "priority" d, attr_bool "completed" d with
  | Some i, Some n, Some de, Some p, Some c => Some (mk i n de p c)
  | _, _, _, _, _ => None
  end.

Definition new (data : pydict) : validated t :=
  match validate_model fields data with
  | Valid d =>
      match of_dict d with
      | Some x => Valid x
      | None => Invalid []
      end
  | Invalid e => Invalid e
  end.

End Todo.

(** ** The store and the route handlers *)

(** The module-level list [all_todos]. *)
Definition store : Type := list Todo.t.

Definition all_todos : store :=
  [ Todo.mk 1 "Buy groceries" "Milk, Bread, Eggs" MEDIUM false;
    Todo.mk 2 "Read a book" "Finish reading 'The Great Gatsby'" LOW false;
    Todo.mk 3 "Sports" "Play football" HIGH true;
    Todo.mk 4 "Workout" "Go to the gym for a workout session" HIGH false;
    Todo.mk 5 "Call Mom" "Catch up with Mom over the phone" MEDIUM false ].

Inductive exn : Type :=
| HTTPException (status_code : Z) (detail : string)
| ValueError
| IndexError
| ValidationError (e : errors)
| RequestValidationError (e : errors).

Inductive outcome (A : Type) : Type :=
| Return (a : A)
| Raise (e : exn).
Arguments Return {A} a.
Arguments Raise {A} e.

(** A handler runs on the current list and leaves a list behind. *)
Definition handler (A : Type) : Type := store -> outcome A * store.

(** The dictionaries returned by the PUT and DELETE handlers. *)
Record reply : Type := mkReply {
  message : string;
  todo : Todo.t
}.

Definition ids (s : store) : list Z := map Todo.todo_id s.

(** [for todo in all_todos: if todo.todo_id == todo_id: return todo] *)
Fixpoint find_todo (todo_id : Z) (l : list Todo.t) : option Todo.t :=
  match l with
  | [] => None
  | todo :: rest =>
      if Todo.todo_id todo =? todo_id then Some todo else find_todo todo_id rest
  end.

(** GET /todo/{todo_id} (the first [get_todo] of the file). *)
Definition get_todo (todo_id : Z) : handler Todo.t :=
  fun all_todos =>
    match find_todo todo_id all_todos with
    | Some todo => (Return todo, all_todos)
    | None => (Raise (HTTPException 404 "Todo not found"), all_todos)
    end.

(** GET /todo (the second [get_todo] of the file, which takes [first_n]). *)
Definition get_todo_first_n (first_n : option Z) : handler (list Todo.t) :=
  fun all_todos =>
    if truthy first_n then
      match first_n with
      | Some n => (Return (slice_to all_todos n), all_todos)
      | None => (Return all_todos, all_todos)
      end
    else (Return all_todos, all_todos).

(** The default of the parameter, [first_n: int = 3]. *)
Definition first_n_default : option Z := Some 3.

(** [max(...)] of a sequence of integers; it raises on an empty one. *)
Definition py_max (l : list Z) : outcome Z :=
  match l with
  | [] => Raise ValueError
  | x :: l' => Return (fold_left Z.max l' x)
  end.

(** POST /todo *)
Definition create_todo (todo : TodoCreate.t) : handler Todo.t :=
  fun all_todos =>
    match py_max (ids all_todos) with
    | Raise e => (Raise e, all_todos)
    | Return m =>
        let new_todo_id := m + 1 in
        match Todo.new [ ("todo_id", PyInt new_todo_id);
                         ("todo_name", PyStr (TodoCreate.todo_name todo));
                         ("todo_description",
                          PyStr (TodoCreate.todo_description todo));
                         ("priority", PyPriority (TodoCreate.priority todo));
                         ("completed", PyBool (TodoCreate.completed todo)) ] with
        | Invalid e => (Raise (ValidationError e), all_todos)
        | Valid new_todo =>
            (Raise (HTTPException 201 "Todo created successfully"),
             all_todos ++ [new_todo])
        end
    end.

(** [if v is not None: todo.f = v] *)
Definition assign {A : Type} (v : option A) (old : A) : A :=
  match v with
  | Some a => a
  | None => old
  end.

(** The four conditional assignments of [update_todo] on one object. *)
Definition apply_update (updated_todo : TodoUpdate.t) (todo : Todo.t) : Todo.t :=
  Todo.mk (Todo.todo_id todo)
    (assign (TodoUpdate.todo_name updated_todo) (Todo.todo_name todo))
    (assign (TodoUpdate.todo_description updated_todo) (Todo.todo_description todo))
    (assign (TodoUpdate.priority updated_todo) (Todo.priority todo))
    (assign (TodoUpdate.completed updated_todo) (Todo.completed todo)).

(** The loop of [update_todo]: the first object with the id is changed in
    place; the result is that object and the list as it then stands. *)
Fixpoint update_loop (todo_id : Z) (updated_todo : TodoUpdate.t) (l : list Todo.t)
  : option (Todo.t * list Todo.t) :=
  match l with
  | [] => None
  | todo :: rest =>
      if Todo.todo_id todo =? todo_id then
        let todo' := apply_update updated_todo todo in
        Some (todo', todo' :: rest)
      else
        match update_loop todo_id updated_todo rest with
        | Some (t, rest') => Some (t, todo :: rest')
        | None => None
        end
  end.

(** PUT /todo/{todo_id} *)
Definition update_todo (todo_id : Z) (updated_todo : TodoUpdate.t) : handler reply :=
  fun all_todos =>
    match update_loop todo_id updated_todo all_todos with
    | Some (t, all_todos') =>
        (Return (mkReply "Todo updated successfully" t), all_todos')
    | None => (Raise (HTTPException 404 "Todo not found"), all_todos)
    end.

(** [for index, todo in enumerate(all_todos)]: the index of the first
    object with the id, counting from [index]. *)
Fixpoint find_index (todo_id : Z) (index : nat) (l : list Todo.t) : option nat :=
  match l with
  | [] => None
  | todo :: rest =>
      if Todo.todo_id todo =? todo_id then Some index
      else find_index todo_id (S index) rest
  end.

(** DELETE /todo/{todo_id} *)
Definition delete_todo (todo_id : Z) : handler reply :=
  fun all_todos =>
    match find_index todo_id 0 all_todos with
    | Some index =>
        match pop index all_todos with
        | Some (deleted_todo, all_todos') =>
            (Return (mkReply "Todo deleted successfully" deleted_todo), all_todos')
        | None => (Raise IndexError, all_todos)
        end
    | None => (Raise (HTTPException 404 "Todo not found"), all_todos)
    end.

(** ** Sequences of calls *)

Inductive call : Type :=
| GetTodo (todo_id : Z)
| GetTodoFirstN (first_n : option Z)
| CreateTodo (todo : TodoCreate.t)
| UpdateTodo (todo_id : Z) (updated_todo : TodoUpdate.t)
| DeleteTodo (todo_id : Z).

(** The list a call leaves behind. *)
Definition after (c : call) (s : store) : store :=
  match c with
  | GetTodo todo_id => snd (get_todo todo_id s)
  | GetTodoFirstN first_n => snd (get_todo_first_n first_n s)
  | CreateTodo todo => snd (create_todo todo s)
  | UpdateTodo todo_id updated_todo => snd (update_todo todo_id updated_todo s)
  | DeleteTodo todo_id => snd (delete_todo todo_id s)
  end.

Definition run (cs : list call) (s : store) : store :=
  fold_left (fun s c => after c s) cs s.

(** FastAPI builds the body parameter of a handler from the request body
    and calls the handler only when the body validates. *)
Definition with_body {B A : Type} (new : pydict -> validated B)
  (h : B -> handler A) (body : pydict) : handler A :=
  fun all_todos =>
    match new body with
    | Valid b => h b all_todos
    | Invalid e => (Raise (RequestValidationError e), all_todos)
    end.

Definition NotFound : exn := HTTPException 404 "Todo not found".

(** ** Statements checked against the handlers *)

(** The store invariant: no two objects of the list share an id. *)
Definition unique_ids (s : store) : Prop := NoDup (ids s).

(** Both length constraints of [TodoBase], as they would hold of one
    stored object. *)
Definition within_bounds (t : Todo.t) : Prop :=
  2 <= len (Todo.todo_name t) <= 150 /\ 0 <= len (Todo.todo_description t) <= 300.

(** "The list read with count [n] has exactly [min n size] records". *)
Definition returns_min_records (n : Z) (s : store) : Prop :=
  exists l, fst (get_todo_first_n (Some n) s) = Return l
            /\ List.length l = Nat.min (Z.to_nat n) (List.length s).

(** The length constraints of [TodoBase] on a creation input. *)
Definition input_within_bounds (todo : TodoCreate.t) : Prop :=
  2 <= len (TodoCreate.todo_name todo) <= 150
  /\ len (TodoCreate.todo_description todo) <= 300.

(** The same constraints on the strings that a patch carries. *)
Definition patch_within_bounds (u : TodoUpdate.t) : Prop :=
  match TodoUpdate.todo_name u with
  | Some n => 2 <= len n <= 150
  | None => True
  end
  /\ match TodoUpdate.todo_description u with
     | Some d => len d <= 300
     | None => True
     end.

Definition call_within_bounds (c : call) : Prop :=
  match c with
  | UpdateTodo _ updated_todo => patch_within_bounds updated_todo
  | CreateTodo _ | GetTodo _ | GetTodoFirstN _ | DeleteTodo _ => True
  end.

(** The object that [create_todo] builds for the id [new_todo_id]. *)
Definition created (new_todo_id : Z) (todo : TodoCreate.t) : Todo.t :=
  Todo.mk new_todo_id (TodoCreate.todo_name todo)
    (TodoCreate.todo_description todo)
    (TodoCreate.priority todo) (TodoCreate.completed todo).

(** The objects built for a run of inputs when the greatest id is [m]. *)
Fixpoint created_after (m : Z) (inputs : list TodoCreate.t) : list Todo.t :=
  match inputs with
  | [] => []
  | todo :: rest => created (m + 1) todo :: created_after (m + 1) rest
  end.

(** [k] ids counting up from [m + 1]. *)
Fixpoint consecutive (m : Z) (k : nat) : list Z :=
  match k with
  | O => []
  | S k' => (m + 1) :: consecutive (m + 1) k'
  end.

(** A field of a request body that is left out or sent as [null]. *)
Definition null_or_absent (name : string) (body : pydict) : Prop :=
  lookup name body = None \/ lookup name body = Some PyNone.

(** * Properties *)

(** ** Lists and the loops over them *)

Lemma ids_app (l1 l2 : store) : ids (l1 ++ l2) = ids l1 ++ ids l2.
Proof. apply map_app. Qed.

(** An id of the list has a first occurrence. *)
Lemma first_occurrence (todo_id : Z) (s : store) :
  In todo_id (ids s) ->
  exists l1 t l2, s = l1 ++ t :: l2 /\ ~ In todo_id (ids l1) /\ Todo.todo_id t = todo_id.
Proof.
  induction s as [|a s IH]; simpl; [tauto|].
  intros H. destruct (Z.eq_dec (Todo.todo_id a) todo_id) as [E|N].
  - exists [], a, s. simpl. tauto.
  - destruct H as [H|H]; [contradiction|].
    destruct (IH H) as (l1 & t & l2 & -> & Hn & Ht).
    exists (a :: l1), t, l2. simpl. repeat split; trivial. tauto.
Qed.

Section Loops.

Variable todo_id : Z.

Lemma find_todo_absent (s : store) :
  ~ In todo_id (ids s) -> find_todo todo_id s = None.
Proof.
  induction s as [|a s IH]; simpl; trivial.
  intros H. destruct (Z.eqb_spec (Todo.todo_id a) todo_id); [tauto|].
  apply IH. tauto.
Qed.

Lemma find_todo_first (l1 l2 : store) (t : Todo.t) :
  ~ In todo_id (ids l1) -> Todo.todo_id t = todo_id ->
  find_todo todo_id (l1 ++ t :: l2) = Some t.
Proof.
  intros Hn Ht. induction l1 as [|a l1 IH]; simpl in *.
  - destruct (Z.eqb_spec (Todo.todo_id t) todo_id); congruence.
  - destruct (Z.eqb_spec (Todo.todo_id a) todo_id); [tauto|].
    apply IH. tauto.
Qed.

Lemma update_loop_absent (u : TodoUpdate.t) (s : store) :
  ~ In todo_id (ids s) -> update_loop todo_id u s = None.
Proof.
  induction s as [|a s IH]; simpl; trivial.
  intros H. destruct (Z.eqb_spec (Todo.todo_id a) todo_id); [tauto|].
  rewrite IH; tauto.
Qed.

Lemma update_loop_first (u : TodoUpdate.t) (l1 l2 : store) (t : Todo.t) :
  ~ In todo_id (ids l1) -> Todo.todo_id t = todo_id ->
  update_loop todo_id u (l1 ++ t :: l2)
  = Some (apply_update u t, l1 ++ apply_update u t :: l2).
Proof.
  intros Hn Ht. induction l1 as [|a l1 IH]; simpl in *.
  - destruct (Z.eqb_spec (Todo.todo_id t) todo_id); congruence.
  - destruct (Z.eqb_spec (Todo.todo_id a) todo_id); [tauto|].
    rewrite IH; tauto.
Qed.

Lemma find_index_absent (s : store) (k : nat) :
  ~ In todo_id (ids s) -> find_index todo_id k s = None.
Proof.
  revert k. induction s as [|a s IH]; simpl; trivial.
  intros k H. destruct (Z.eqb_spec (Todo.todo_id a) todo_id); [tauto|].
  apply IH. tauto.
Qed.

Lemma find_index_first (l1 l2 : store) (t : Todo.t) (k : nat) :
  ~ In todo_id (ids l1) -> Todo.todo_id t = todo_id ->
  find_index todo_id k (l1 ++ t :: l2) = Some (k + List.length l1)%nat.
Proof.
  intros Hn Ht. revert k. induction l1 as [|a l1 IH]; simpl in *; intros k.
  - destruct (Z.eqb_spec (Todo.todo_id t) todo_id); [|congruence].
    f_equal. lia.
  - destruct (Z.eqb_spec (Todo.todo_id a) todo_id); [tauto|].
    rewrite IH by tauto. f_equal. lia.
Qed.

End Loops.

Lemma pop_middle {A : Type} (l1 l2 : list A) (x : A) :
  pop (List.length l1) (l1 ++ x :: l2) = Some (x, l1 ++ l2).
Proof.
  induction l1 as [|a l1 IH]; simpl; trivial.
  now rewrite IH.
Qed.

(** The seeded list has pairwise distinct ids. *)
Lemma all_todos_unique : unique_ids all_todos.
Proof.
  unfold unique_ids. simpl.
  repeat (constructor; [simpl; intuition discriminate|]). constructor.
Defined.

(** ** The handlers on an absent and on a present id *)

Lemma get_todo_absent (todo_id : Z) (s : store) :
  ~ In todo_id (ids s) -> get_todo todo_id s = (Raise NotFound, s).
Proof. intros H. unfold get_todo. now rewrite find_todo_absent. Qed.

Lemma update_todo_absent (todo_id : Z) (u : TodoUpdate.t) (s : store) :
  ~ In todo_id (ids s) -> update_todo todo_id u s = (Raise NotFound, s).
Proof. intros H. unfold update_todo. now rewrite update_loop_absent. Qed.

Lemma delete_todo_absent (todo_id : Z) (s : store) :
  ~ In todo_id (ids s) -> delete_todo todo_id s = (Raise NotFound, s).
Proof. intros H. unfold delete_todo. now rewrite find_index_absent. Qed.

Lemma get_todo_first (l1 l2 : store) (t : Todo.t) :
  ~ In (Todo.todo_id t) (ids l1) ->
  get_todo (Todo.todo_id t) (l1 ++ t :: l2) = (Return t, l1 ++ t :: l2).
Proof. intros H. unfold get_todo. now rewrite find_todo_first. Qed.

Lemma update_todo_first (u : TodoUpdate.t) (l1 l2 : store) (t : Todo.t) :
  ~ In (Todo.todo_id t) (ids l1) ->
  update_todo (Todo.todo_id t) u (l1 ++ t :: l2)
  = (Return (mkReply "Todo updated successfully" (apply_update u t)),
     l1 ++ apply_update u t :: l2).
Proof. intros H. unfold update_todo. now rewrite update_loop_first. Qed.

Lemma delete_todo_first (l1 l2 : store) (t : Todo.t) :
  ~ In (Todo.todo_id t) (ids l1) ->
  delete_todo (Todo.todo_id t) (l1 ++ t :: l2)
  = (Return (mkReply "Todo deleted successfully" t), l1 ++ l2).
Proof.
  intros H. unfold delete_todo.
  rewrite (find_index_first (Todo.todo_id t) l1 l2 t 0 H eq_refl).
  simpl. now rewrite pop_middle.
Qed.

(** C5: for an id that no object of the list carries, GET by id, PUT and
    DELETE each raise the 404 "Todo not found" exception and leave the list
    exactly as it was. *)
Theorem absent_id_not_found (todo_id : Z) (s : store) :
  ~ In todo_id (ids s) ->
  get_todo todo_id s = (Raise NotFound, s)
  /\ (forall updated_todo : TodoUpdate.t,
        update_todo todo_id updated_todo s = (Raise NotFound, s))
  /\ delete_todo todo_id s = (Raise NotFound, s).
Proof.
  intros H. repeat split.
  - now apply get_todo_absent.
  - intros u. now apply update_todo_absent.
  - now apply delete_todo_absent.
Qed.

Lemma absent_id_not_found_witness :
  ~ In 9 (ids all_todos)
  /\ get_todo 9 all_todos = (Raise NotFound, all_todos)
  /\ (forall updated_todo : TodoUpdate.t,
        update_todo 9 updated_todo all_todos = (Raise NotFound, all_todos))
  /\ delete_todo 9 all_todos = (Raise NotFound, all_todos).
Proof.
  assert (H : ~ In 9 (ids all_todos)) by (simpl; intuition discriminate).
  split; [exact H | exact (absent_id_not_found 9 all_todos H)].
Defined.

(** C6: for an id present in the list, PUT changes the first object with
    that id and nothing else: each field given in the patch is overwritten
    with the patch's value, each field that is [None] in the patch keeps
    its value, the id is kept, every other object and the order are kept,
    and the handler returns the changed object (with its message).  With a
    patch whose four fields are [None] the object and the list are
    unchanged. *)
Theorem update_overwrites_given_fields
  (todo_id : Z) (updated_todo : TodoUpdate.t) (s : store) :
  In todo_id (ids s) ->
  exists l1 t l2 t',
    s = l1 ++ t :: l2
    /\ ~ In todo_id (ids l1)
    /\ Todo.todo_id t = todo_id
    /\ update_todo todo_id updated_todo s
       = (Return (mkReply "Todo updated successfully" t'), l1 ++ t' :: l2)
    /\ Todo.todo_id t' = Todo.todo_id t
    /\ Todo.todo_name t'
       = match TodoUpdate.todo_name updated_todo with
         | Some v => v
         | None => Todo.todo_name t
         end
    /\ Todo.todo_description t'
       = match TodoUpdate.todo_description updated_todo with
         | Some v => v
         | None => Todo.todo_description t
         end
    /\ Todo.priority t'
       = match TodoUpdate.priority updated_todo with
         | Some v => v
         | None => Todo.priority t
         end
    /\ Todo.completed t'
       = match TodoUpdate.completed updated_todo with
         | Some v => v
         | None => Todo.completed t
         end
    /\ (updated_todo = TodoUpdate.mk None None None None ->
        t' = t /\ snd (update_todo todo_id updated_todo s) = s).
Proof.
  intros H.
  destruct (first_occurrence todo_id s H) as (l1 & t & l2 & Hs & Hn & Ht).
  exists l1, t, l2, (apply_update updated_todo t).
  assert (U : update_todo todo_id updated_todo s
              = (Return (mkReply "Todo updated successfully"
                           (apply_update updated_todo t)),
                 l1 ++ apply_update updated_todo t :: l2)).
  { subst s todo_id. now apply update_todo_first. }
  repeat match goal with |- _ /\ _ => split end; trivial.
  intros ->. split.
  - destruct t; reflexivity.
  - rewrite U. simpl. subst s. destruct t; reflexivity.
Qed.

Lemma update_overwrites_given_fields_witness :
  In 3 (ids all_todos)
  /\ exists l1 t l2 t',
    all_todos = l1 ++ t :: l2
    /\ ~ In 3 (ids l1)
    /\ Todo.todo_id t = 3
    /\ update_todo 3 (TodoUpdate.mk None None None (Some false)) all_todos
       = (Return (mkReply "Todo updated successfully" t'), l1 ++ t' :: l2)
    /\ Todo.todo_id t' = Todo.todo_id t
    /\ Todo.todo_name t' = Todo.todo_name t
    /\ Todo.todo_description t' = Todo.todo_description t
    /\ Todo.priority t' = Todo.priority t
    /\ Todo.completed t' = false
    /\ (TodoUpdate.mk None None None (Some false) = TodoUpdate.mk None None None None ->
        t' = t
        /\ snd (update_todo 3 (TodoUpdate.mk None None None (Some false)) all_todos)
           = all_todos).
Proof.
  assert (H : In 3 (ids all_todos)) by (simpl; tauto).
  split; [exact H|].
  exact (update_overwrites_given_fields 3
           (TodoUpdate.mk None None None (Some false)) all_todos H).
Defined.

(** C9: on a list with pairwise distinct ids, DELETE of a present id takes
    out exactly the object with that id and returns it (with its message);
    the objects before and after it stay as they were and in their order,
    the list is one shorter, and GET by that id then raises the 404
    "Todo not found" exception. *)
Theorem delete_removes_the_record (todo_id : Z) (s : store) :
  unique_ids s ->
  In todo_id (ids s) ->
  exists l1 t l2,
    s = l1 ++ t :: l2
    /\ Todo.todo_id t = todo_id
    /\ delete_todo todo_id s
       = (Return (mkReply "Todo deleted successfully" t), l1 ++ l2)
    /\ S (List.length (l1 ++ l2)) = List.length s
    /\ get_todo todo_id (l1 ++ l2) = (Raise NotFound, l1 ++ l2).
Proof.
  intros U H.
  destruct (first_occurrence todo_id s H) as (l1 & t & l2 & Hs & Hn & Ht).
  exists l1, t, l2. subst s todo_id. repeat split.
  - now apply delete_todo_first.
  - rewrite !length_app. simpl. lia.
  - apply get_todo_absent.
    unfold unique_ids in U. rewrite ids_app in *. simpl in U.
    apply NoDup_remove_2 in U. exact U.
Qed.

Lemma delete_removes_the_record_witness :
  unique_ids all_todos
  /\ In 3 (ids all_todos)
  /\ exists l1 t l2,
    all_todos = l1 ++ t :: l2
    /\ Todo.todo_id t = 3
    /\ delete_todo 3 all_todos
       = (Return (mkReply "Todo deleted successfully" t), l1 ++ l2)
    /\ S (List.length (l1 ++ l2)) = List.length all_todos
    /\ get_todo 3 (l1 ++ l2) = (Raise NotFound, l1 ++ l2).
Proof.
  assert (H : In 3 (ids all_todos)) by (simpl; tauto).
  split; [exact all_todos_unique|]. split; [exact H|].
  exact (delete_removes_the_record 3 all_todos all_todos_unique H).
Defined.

(** ** The slice of the list read *)

Lemma slice_to_positive {A : Type} (l : list A) (n : Z) :
  0 <= n -> slice_to l n = firstn (Z.to_nat n) l.
Proof.
  intros Hn. unfold slice_to, slice_stop.
  destruct (Z.ltb_spec n 0); [lia|].
  destruct (Z.le_gt_cases n (Z.of_nat (List.length l))) as [Hle|Hgt].
  - now rewrite Z.min_l.
  - rewrite Z.min_r by lia. rewrite Nat2Z.id.
    rewrite firstn_all. symmetry. apply firstn_all2. lia.
Qed.

Lemma slice_to_negative {A : Type} (l : list A) (n : Z) :
  n < 0 ->
  slice_to l n = firstn (List.length l - Z.to_nat (- n)) l.
Proof.
  intros Hn. unfold slice_to, slice_stop.
  destruct (Z.ltb_spec n 0); [|lia].
  f_equal. lia.
Qed.

(** C8 does not hold at [n = 0]: on the five seeded records the list
    read with count 0 has five records, not [min 0 5 = 0]. *)
Lemma first_n_zero_returns_all :
  fst (get_todo_first_n (Some 0) all_todos) = Return all_todos
  /\ List.length all_todos = 5%nat
  /\ ~ returns_min_records 0 all_todos.
Proof.
  split; [reflexivity|]. split; [reflexivity|].
  intros (l & Hl & Hlen). simpl in Hl. injection Hl as <-.
  simpl in Hlen. discriminate.
Qed.

(** C8 (amended): for every count [n >= 1] the list read is the prefix of
    the stored list of length [min n size], in stored order, and it is the
    whole list when [n] is at least the size; for the count 0 and for
    [None] it is the whole list.  The stored list is never changed. *)
Theorem first_n_returns_prefix (n : Z) (s : store) :
  1 <= n ->
  get_todo_first_n (Some n) s = (Return (firstn (Z.to_nat n) s), s)
  /\ List.length (firstn (Z.to_nat n) s) = Nat.min (Z.to_nat n) (List.length s)
  /\ (exists rest, s = firstn (Z.to_nat n) s ++ rest)
  /\ (Z.of_nat (List.length s) <= n -> firstn (Z.to_nat n) s = s)
  /\ get_todo_first_n (Some 0) s = (Return s, s)
  /\ get_todo_first_n None s = (Return s, s).
Proof.
  intros Hn. split; [|split; [|split; [|split; [|split]]]].
  - unfold get_todo_first_n, truthy.
    destruct (Z.eqb_spec n 0); [lia|]. simpl.
    rewrite slice_to_positive by lia. reflexivity.
  - apply length_firstn.
  - exists (skipn (Z.to_nat n) s). symmetry. apply firstn_skipn.
  - intros Hle. apply firstn_all2. lia.
  - reflexivity.
  - reflexivity.
Qed.

Lemma first_n_returns_prefix_witness :
  1 <= 3
  /\ get_todo_first_n first_n_default all_todos
     = (Return (firstn 3 all_todos), all_todos)
  /\ List.length (firstn 3 all_todos) = Nat.min 3 (List.length all_todos)
  /\ (exists rest, all_todos = firstn 3 all_todos ++ rest)
  /\ (Z.of_nat (List.length all_todos) <= 3 -> firstn 3 all_todos = all_todos)
  /\ get_todo_first_n (Some 0) all_todos = (Return all_todos, all_todos)
  /\ get_todo_first_n None all_todos = (Return all_todos, all_todos).
Proof.
  assert (H : 1 <= 3) by lia.
  split; [exact H | exact (first_n_returns_prefix 3 all_todos H)].
Defined.

(** C10: for every negative count [n] the list read does not raise; it is
    the stored list without its last [|n|] records (without all of them
    when [|n|] is at least the size), in stored order. *)
Theorem first_n_negative_drops_last (n : Z) (s : store) :
  n < 0 ->
  exists kept dropped,
    get_todo_first_n (Some n) s = (Return kept, s)
    /\ s = kept ++ dropped
    /\ List.length dropped = Nat.min (Z.to_nat (- n)) (List.length s)
    /\ (Z.of_nat (List.length s) <= - n -> kept = []).
Proof.
  intros Hn.
  exists (firstn (List.length s - Z.to_nat (- n)) s),
         (skipn (List.length s - Z.to_nat (- n)) s).
  split; [|split; [|split]].
  - unfold get_todo_first_n, truthy.
    destruct (Z.eqb_spec n 0); [lia|]. simpl.
    now rewrite slice_to_negative.
  - symmetry. apply firstn_skipn.
  - rewrite length_skipn. lia.
  - intros Hle.
    replace (List.length s - Z.to_nat (- n))%nat with 0%nat by lia.
    reflexivity.
Qed.

Lemma first_n_negative_drops_last_witness :
  -2 < 0
  /\ exists kept dropped,
    get_todo_first_n (Some (-2)) all_todos = (Return kept, all_todos)
    /\ all_todos = kept ++ dropped
    /\ List.length dropped = Nat.min (Z.to_nat (- -2)) (List.length all_todos)
    /\ (Z.of_nat (List.length all_todos) <= - -2 -> kept = []).
Proof.
  assert (H : -2 < 0) by lia.
  split; [exact H | exact (first_n_negative_drops_last (-2) all_todos H)].
Defined.

(** ** Validation *)

(** The integer values of the enum, and the lookup by value. *)
Lemma PriorityLevel_encoding :
  PriorityLevel_value HIGH = 1 /\ PriorityLevel_value MEDIUM = 2
  /\ PriorityLevel_value LOW = 3
  /\ forall p, PriorityLevel_of_value (PriorityLevel_value p) = Some p.
Proof. repeat split. now intros []. Qed.

(** In [TodoBase] the field [priority] has no default: the value [LOW] of
    the declaration sits under the unknown keyword [defaul]. *)
Lemma priority_field_declaration :
  exists fi,
    lookup "priority" TodoCreate.fields = Some (Priority, fi)
    /\ default fi = None
    /\ extra fi = [("defaul", PyPriority LOW)].
Proof. eexists. repeat split. Qed.


(** A field in error makes the whole model invalid, with that error
    reported. *)
Lemma validate_model_field_error (name : string) (f : annotation * FieldInfo)
  (e : error_type) (m : model) (data : pydict) :
  In (name, f) m ->
  validate_field f (lookup name data) = inl e ->
  exists es, validate_model m data = Invalid es /\ In (name, e) es.
Proof.
  intros Hin He. induction m as [|[n g] m IH]; [contradiction|].
  simpl. destruct Hin as [[= -> ->]|Hin].
  - rewrite He. destruct (validate_model m data) as [d|es].
    + exists [(name, e)]. simpl. tauto.
    + exists ((name, e) :: es). simpl. tauto.
  - destruct (IH Hin) as (es & -> & Hes).
    destruct (validate_field g (lookup n data)) as [e0|v].
    + exists ((n, e0) :: es). simpl. tauto.
    + now exists es.
Qed.


(** The constructor call of [create_todo] succeeds exactly on strings
    within the bounds inherited from [TodoBase], and then builds the object
    from the arguments as they are. *)
Lemma Todo_new_valid (i : Z) (n d : string) (p : PriorityLevel) (c : bool) :
  2 <= len n <= 150 -> len d <= 300 ->
  Todo.new [ ("todo_id", PyInt i); ("todo_name", PyStr n);
             ("todo_description", PyStr d); ("priority", PyPriority p);
             ("completed", PyBool c) ]
  = Valid (Todo.mk i n d p c).
Proof.
  intros Hn Hd. unfold Todo.new. cbn -[len Z.ltb].
  destruct (Z.ltb_spec (len n) 2); [lia|].
  destruct (Z.ltb_spec 150 (len n)); [lia|].
  destruct (Z.ltb_spec 300 (len d)); [lia|].
  reflexivity.
Qed.

Lemma Todo_new_inv (i : Z) (n d : string) (p : PriorityLevel) (c : bool) (t : Todo.t) :
  Todo.new [ ("todo_id", PyInt i); ("todo_name", PyStr n);
             ("todo_description", PyStr d); ("priority", PyPriority p);
             ("completed", PyBool c) ]
  = Valid t ->
  t = Todo.mk i n d p c /\ within_bounds t.
Proof.
  unfold Todo.new, within_bounds. cbn -[len Z.ltb].
  destruct (Z.ltb_spec (len n) 2);
    [destruct (Z.ltb_spec 300 (len d)); discriminate|].
  destruct (Z.ltb_spec 150 (len n));
    [destruct (Z.ltb_spec 300 (len d)); discriminate|].
  destruct (Z.ltb_spec 300 (len d)); [discriminate|].
  cbn -[len]. intros [= <-]. cbn [Todo.todo_name Todo.todo_description].
  split; [reflexivity|]. unfold len in *. lia.
Qed.


(** [TodoUpdate] accepts a name of any length. *)
Lemma TodoUpdate_new_any_name (s : string) :
  TodoUpdate.new [("todo_name", PyStr s)]
  = Valid (TodoUpdate.mk (Some s) None None None).
Proof. reflexivity. Qed.

(** ** Creation *)

Lemma fold_left_max_ge (l : list Z) (x : Z) :
  x <= fold_left Z.max l x /\ forall y, In y l -> y <= fold_left Z.max l x.
Proof.
  revert x. induction l as [|a l IH]; simpl; intros x.
  - split; [lia | tauto].
  - destruct (IH (Z.max x a)) as [H1 H2]. split; [lia|].
    intros y [<-|Hy]; [lia | now apply H2].
Qed.

Lemma fold_left_max_in (l : list Z) (x : Z) :
  fold_left Z.max l x = x \/ In (fold_left Z.max l x) l.
Proof.
  revert x. induction l as [|a l IH]; simpl; intros x; [now left|].
  destruct (IH (Z.max x a)) as [E|Hin]; [|tauto].
  rewrite E. destruct (Z.max_spec x a) as [[_ ->]|[_ ->]]; tauto.
Qed.

(** [py_max] returns the greatest element of a non-empty list. *)
Lemma py_max_greatest (l : list Z) (m : Z) :
  py_max l = Return m -> In m l /\ forall y, In y l -> y <= m.
Proof.
  destruct l as [|x l]; simpl; [discriminate|]. intros [= <-]. split.
  - destruct (fold_left_max_in l x) as [->|H]; tauto.
  - destruct (fold_left_max_ge l x) as [H1 H2].
    intros y [<-|Hy]; [exact H1 | now apply H2].
Qed.

Lemma py_max_nonempty (l : list Z) :
  l <> [] -> exists m, py_max l = Return m.
Proof. destruct l as [|x l]; [congruence|]. intros _. now eexists. Qed.

(** What a call of [create_todo] does, case by case: on an empty list
    [max] raises; otherwise the new object gets the id [max + 1] and the
    fields of the input, and it is appended unless its construction is
    refused.  In no case does the call return. *)
Lemma create_todo_cases (todo : TodoCreate.t) (s : store) :
  (s = [] /\ create_todo todo s = (Raise ValueError, s))
  \/ (exists e, create_todo todo s = (Raise (ValidationError e), s))
  \/ (exists m,
        py_max (ids s) = Return m
        /\ within_bounds (Todo.mk (m + 1) (TodoCreate.todo_name todo)
                            (TodoCreate.todo_description todo)
                            (TodoCreate.priority todo) (TodoCreate.completed todo))
        /\ create_todo todo s
           = (Raise (HTTPException 201 "Todo created successfully"),
              s ++ [Todo.mk (m + 1) (TodoCreate.todo_name todo)
                      (TodoCreate.todo_description todo)
                      (TodoCreate.priority todo) (TodoCreate.completed todo)])).
Proof.
  unfold create_todo. destruct s as [|a s]; [left; now split|right].
  destruct (py_max (ids (a :: s))) as [m|e] eqn:M; [|discriminate].
  match goal with |- context [Todo.new ?k] => destruct (Todo.new k) as [t|e] eqn:N end.
  - right. exists m. apply Todo_new_inv in N. destruct N as [-> B].
    repeat split; trivial; apply B.
  - left. now exists e.
Qed.

(** The id given to a new object is not yet in the list. *)
Lemma new_id_is_fresh (s : store) (m : Z) :
  py_max (ids s) = Return m -> ~ In (m + 1) (ids s).
Proof.
  intros M H. apply py_max_greatest in M. destruct M as [_ M].
  specialize (M _ H). lia.
Qed.

(** X1: on a non-empty list and for an input within the bounds of
    [TodoCreate], the call appends the new object, with id [max + 1] and
    the input's fields, and GET by that id then returns this object. *)
Lemma create_todo_appends (todo : TodoCreate.t) (s : store) :
  s <> [] ->
  2 <= len (TodoCreate.todo_name todo) <= 150 ->
  len (TodoCreate.todo_description todo) <= 300 ->
  exists m new_todo,
    py_max (ids s) = Return m
    /\ new_todo = Todo.mk (m + 1) (TodoCreate.todo_name todo)
                    (TodoCreate.todo_description todo)
                    (TodoCreate.priority todo) (TodoCreate.completed todo)
    /\ create_todo todo s
       = (Raise (HTTPException 201 "Todo created successfully"), s ++ [new_todo])
    /\ get_todo (m + 1) (s ++ [new_todo]) = (Return new_todo, s ++ [new_todo]).
Proof.
  intros Hs Hn Hd.
  destruct (py_max_nonempty (ids s)) as [m M].
  { destruct s; [congruence | discriminate]. }
  exists m. eexists. split; [exact M|]. split; [reflexivity|]. split.
  - unfold create_todo. rewrite M. now rewrite Todo_new_valid.
  - match goal with
    | |- get_todo _ (_ ++ [?t]) = _ => apply (get_todo_first s [] t)
    end.
    simpl. now apply new_id_is_fresh.
Qed.

(** Whatever the input, a call of [create_todo] leaves a list within the
    length bounds when it found one: the constructor of [Todo] checks
    them again. *)
Lemma create_todo_within_bounds (todo : TodoCreate.t) (s : store) :
  Forall within_bounds s -> Forall within_bounds (snd (create_todo todo s)).
Proof.
  intros B.
  destruct (create_todo_cases todo s) as [[_ ->]|[[e ->]|(m & _ & Bn & ->)]];
    trivial.
  simpl. apply Forall_app. split; [exact B | now constructor].
Qed.

(** ** Uniqueness of ids *)

Lemma create_todo_unique (todo : TodoCreate.t) (s : store) :
  unique_ids s -> unique_ids (snd (create_todo todo s)).
Proof.
  intros U.
  destruct (create_todo_cases todo s) as [[_ ->]|[[e ->]|(m & M & _ & ->)]];
    trivial.
  unfold unique_ids. simpl. rewrite ids_app. simpl.
  apply NoDup_app; trivial.
  - constructor; [simpl; tauto | constructor].
  - intros a Ha [<-|[]]. now apply (new_id_is_fresh s m).
Qed.

Lemma update_loop_ids (todo_id : Z) (u : TodoUpdate.t) (s s' : store) (t : Todo.t) :
  update_loop todo_id u s = Some (t, s') -> ids s' = ids s.
Proof.
  revert s'. induction s as [|a s IH]; simpl; intros s'; [discriminate|].
  destruct (Todo.todo_id a =? todo_id).
  - intros [= <- <-]. reflexivity.
  - destruct (update_loop todo_id u s) as [[t0 r]|]; [|discriminate].
    intros [= <- <-]. simpl. f_equal. now apply IH.
Qed.

Lemma update_todo_ids (todo_id : Z) (u : TodoUpdate.t) (s : store) :
  ids (snd (update_todo todo_id u s)) = ids s.
Proof.
  unfold update_todo.
  destruct (update_loop todo_id u s) as [[t s']|] eqn:E; simpl; trivial.
  now apply update_loop_ids in E.
Qed.

Lemma delete_todo_unique (todo_id : Z) (s : store) :
  unique_ids s -> unique_ids (snd (delete_todo todo_id s)).
Proof.
  intros U. destruct (in_dec Z.eq_dec todo_id (ids s)) as [H|H].
  - destruct (first_occurrence todo_id s H) as (l1 & t & l2 & -> & Hn & <-).
    rewrite delete_todo_first by trivial. simpl.
    unfold unique_ids in *. rewrite ids_app in *. simpl in U.
    now apply NoDup_remove_1 in U.
  - now rewrite delete_todo_absent.
Qed.

Lemma after_unique (c : call) (s : store) :
  unique_ids s -> unique_ids (after c s).
Proof.
  intros U. destruct c as [i|n|todo|i u|i]; simpl.
  - unfold get_todo. now destruct (find_todo i s).
  - unfold get_todo_first_n. destruct (truthy n); [destruct n|]; exact U.
  - now apply create_todo_unique.
  - unfold unique_ids. now rewrite update_todo_ids.
  - now apply delete_todo_unique.
Qed.

Lemma run_unique (cs : list call) (s : store) :
  unique_ids s -> unique_ids (run cs s).
Proof.
  revert s. induction cs as [|c cs IH]; simpl; intros s U; trivial.
  apply IH. now apply after_unique.
Qed.

(** C2: starting from a list whose objects have pairwise distinct ids,
    the objects of the list left by any sequence of POST calls have
    pairwise distinct ids, and so have those left by any sequence of calls
    of the five handlers. *)
Theorem ids_stay_unique (s : store) :
  unique_ids s ->
  (forall inputs : list TodoCreate.t, unique_ids (run (map CreateTodo inputs) s))
  /\ (forall cs : list call, unique_ids (run cs s)).
Proof.
  intros U. split; intros; now apply run_unique.
Qed.

Lemma ids_stay_unique_witness :
  unique_ids all_todos
  /\ (forall inputs : list TodoCreate.t,
        unique_ids (run (map CreateTodo inputs) all_todos))
  /\ (forall cs : list call, unique_ids (run cs all_todos)).
Proof.
  split; [exact all_todos_unique | exact (ids_stay_unique all_todos all_todos_unique)].
Defined.

(** C1 (not met by the code): creation should give the id 1 on an empty
    list and return the created object.  On an empty list the call of
    [create_todo] raises [ValueError] out of [max] and appends nothing;
    and on no list does the call return the created object, it always ends
    in an exception. *)
Theorem create_todo_raises (todo : TodoCreate.t) :
  create_todo todo [] = (Raise ValueError, [])
  /\ forall s : store, exists e, fst (create_todo todo s) = Raise e.
Proof.
  split; [reflexivity|]. intros s.
  destruct (create_todo_cases todo s) as [[_ ->]|[[e ->]|(m & _ & _ & ->)]];
    simpl; eauto.
Qed.

(** C7 (not met by the code): creation followed by GET by the new id
    should return the created object on every list.  On an empty list no
    id is assigned by [create_todo], the list stays empty, and GET by the
    id 1 raises the 404 "Todo not found" exception. *)
Theorem create_then_get_on_empty_list (todo : TodoCreate.t) :
  snd (create_todo todo []) = []
  /\ get_todo 1 (snd (create_todo todo [])) = (Raise NotFound, []).
Proof. split; reflexivity. Qed.

(** C3 (not met by the code): an input without priority should be
    accepted and get the priority LOW.  A body for [TodoCreate] that has
    no [priority] is refused with the error "missing" on that field, and
    the POST handler is not run on it: the list is unchanged. *)
Theorem create_without_priority_refused (body : pydict) :
  lookup "priority" body = None ->
  exists e,
    TodoCreate.new body = Invalid e
    /\ In ("priority", missing) e
    /\ forall s : store,
         with_body TodoCreate.new create_todo body s
         = (Raise (RequestValidationError e), s).
Proof.
  intros H.
  destruct (validate_model_field_error "priority"
              (Priority, Field [] [("defaul", PyPriority LOW);
                                   ("description",
                                    PyStr "Priority level of the todo task")])
              missing TodoCreate.fields body) as (e & V & Hin).
  - simpl. tauto.
  - rewrite H. reflexivity.
  - exists e. unfold with_body, TodoCreate.new. rewrite V. now repeat split.
Qed.

Lemma create_without_priority_refused_witness :
  lookup "priority" [("todo_name", PyStr "Call Dad"); ("todo_description", PyStr "")]
  = None
  /\ exists e,
    TodoCreate.new [("todo_name", PyStr "Call Dad"); ("todo_description", PyStr "")]
    = Invalid e
    /\ In ("priority", missing) e
    /\ forall s : store,
         with_body TodoCreate.new create_todo
           [("todo_name", PyStr "Call Dad"); ("todo_description", PyStr "")] s
         = (Raise (RequestValidationError e), s).
Proof.
  split; [reflexivity|].
  exact (create_without_priority_refused
           [("todo_name", PyStr "Call Dad"); ("todo_description", PyStr "")]
           eq_refl).
Defined.

(** C4 (not met by the code): accepted inputs and patches should have a
    name of 2 to 150 and a description of at most 300 characters, so that
    no stored object is outside these bounds.  [TodoUpdate] accepts the
    one-character name "x", the PUT handler stores it, and the list then
    holds an object whose name has length 1. *)
Theorem update_stores_short_name :
  TodoUpdate.new [("todo_name", PyStr "x")]
  = Valid (TodoUpdate.mk (Some "x") None None None)
  /\ with_body TodoUpdate.new (update_todo 1) [("todo_name", PyStr "x")] all_todos
     = (Return (mkReply "Todo updated successfully"
                  (Todo.mk 1 "x" "Milk, Bread, Eggs" MEDIUM false)),
        Todo.mk 1 "x" "Milk, Bread, Eggs" MEDIUM false :: tl all_todos)
  /\ len (Todo.todo_name (Todo.mk 1 "x" "Milk, Bread, Eggs" MEDIUM false)) = 1.
Proof. repeat split. Qed.

(** * Further properties of the handlers *)

(** ** Creation on a list that is not empty *)

Lemma create_todo_valid (todo : TodoCreate.t) (s : store) (m : Z) :
  py_max (ids s) = Return m ->
  input_within_bounds todo ->
  create_todo todo s
  = (Raise (HTTPException 201 "Todo created successfully"),
     s ++ [created (m + 1) todo]).
Proof.
  intros M [Hn Hd]. unfold create_todo. rewrite M.
  now rewrite Todo_new_valid.
Qed.

(** After an object with the id [max + 1] is appended, that id is the
    greatest. *)
Lemma py_max_app_new (s : store) (m : Z) (t : Todo.t) :
  py_max (ids s) = Return m ->
  Todo.todo_id t = m + 1 ->
  py_max (ids (s ++ [t])) = Return (m + 1).
Proof.
  intros M Ht. rewrite ids_app. simpl.
  destruct (ids s) as [|x l]; simpl in *; [discriminate|].
  injection M as M. rewrite fold_left_app. simpl. rewrite M, Ht.
  f_equal. lia.
Qed.

Lemma call_dad_within_bounds :
  input_within_bounds (TodoCreate.mk "Call Dad" "" MEDIUM false).
Proof. unfold input_within_bounds, len. simpl. lia. Defined.

Lemma all_todos_nonempty : all_todos <> [].
Proof. discriminate. Defined.

Lemma create_todo_appends_witness :
  all_todos <> []
  /\ 2 <= len "Call Dad" <= 150
  /\ len "" <= 300
  /\ exists m new_todo,
    py_max (ids all_todos) = Return m
    /\ new_todo = Todo.mk (m + 1) "Call Dad" "" MEDIUM false
    /\ create_todo (TodoCreate.mk "Call Dad" "" MEDIUM false) all_todos
       = (Raise (HTTPException 201 "Todo created successfully"),
          all_todos ++ [new_todo])
    /\ get_todo (m + 1) (all_todos ++ [new_todo])
       = (Return new_todo, all_todos ++ [new_todo]).
Proof.
  split; [exact all_todos_nonempty|].
  split; [exact (proj1 call_dad_within_bounds)|].
  split; [exact (proj2 call_dad_within_bounds)|].
  exact (create_todo_appends (TodoCreate.mk "Call Dad" "" MEDIUM false) all_todos
           all_todos_nonempty (proj1 call_dad_within_bounds)
           (proj2 call_dad_within_bounds)).
Defined.

(** X2: on a non-empty list, POST of an input within the bounds followed
    by DELETE of the id just assigned returns the object that was created
    and leaves the list exactly as it was before the POST. *)
Theorem create_then_delete_restores (todo : TodoCreate.t) (s : store) :
  s <> [] ->
  input_within_bounds todo ->
  exists m,
    py_max (ids s) = Return m
    /\ delete_todo (m + 1) (snd (create_todo todo s))
       = (Return (mkReply "Todo deleted successfully" (created (m + 1) todo)), s).
Proof.
  intros Hs B.
  destruct (py_max_nonempty (ids s)) as [m M].
  { destruct s; [congruence | discriminate]. }
  exists m. split; [exact M|].
  rewrite (create_todo_valid todo s m M B). simpl.
  rewrite <- (app_nil_r s) at 2.
  apply (delete_todo_first s [] (created (m + 1) todo)).
  simpl. now apply new_id_is_fresh.
Qed.

Lemma create_then_delete_restores_witness :
  all_todos <> []
  /\ input_within_bounds (TodoCreate.mk "Call Dad" "" MEDIUM false)
  /\ exists m,
    py_max (ids all_todos) = Return m
    /\ delete_todo (m + 1)
         (snd (create_todo (TodoCreate.mk "Call Dad" "" MEDIUM false) all_todos))
       = (Return (mkReply "Todo deleted successfully"
                    (created (m + 1) (TodoCreate.mk "Call Dad" "" MEDIUM false))),
          all_todos).
Proof.
  split; [exact all_todos_nonempty|]. split; [exact call_dad_within_bounds|].
  exact (create_then_delete_restores (TodoCreate.mk "Call Dad" "" MEDIUM false)
           all_todos all_todos_nonempty call_dad_within_bounds).
Defined.

(** X3: ids are handed out again.  On a non-empty list, when the object
    just created is deleted, the next POST assigns the same id [max + 1] to
    its own object. *)
Theorem deleted_newest_id_is_reused (todo1 todo2 : TodoCreate.t) (s : store) :
  s <> [] ->
  input_within_bounds todo1 ->
  input_within_bounds todo2 ->
  exists m,
    py_max (ids s) = Return m
    /\ run [CreateTodo todo1] s = s ++ [created (m + 1) todo1]
    /\ run [CreateTodo todo1; DeleteTodo (m + 1); CreateTodo todo2] s
       = s ++ [created (m + 1) todo2].
Proof.
  intros Hs B1 B2.
  destruct (py_max_nonempty (ids s)) as [m M].
  { destruct s; [congruence | discriminate]. }
  assert (D : delete_todo (m + 1) (s ++ [created (m + 1) todo1])
              = (Return (mkReply "Todo deleted successfully"
                           (created (m + 1) todo1)), s ++ [])).
  { apply (delete_todo_first s [] (created (m + 1) todo1)).
    simpl. now apply new_id_is_fresh. }
  exists m. split; [exact M|]. unfold run. cbn [fold_left after].
  rewrite (create_todo_valid todo1 s m M B1). cbn [snd].
  split; [reflexivity|].
  rewrite D. cbn [snd]. rewrite app_nil_r.
  now rewrite (create_todo_valid todo2 s m M B2).
Qed.

Lemma deleted_newest_id_is_reused_witness :
  all_todos <> []
  /\ input_within_bounds (TodoCreate.mk "Call Dad" "" MEDIUM false)
  /\ input_within_bounds (TodoCreate.mk "Call Dad" "" MEDIUM false)
  /\ exists m,
    py_max (ids all_todos) = Return m
    /\ run [CreateTodo (TodoCreate.mk "Call Dad" "" MEDIUM false)] all_todos
       = all_todos ++ [created (m + 1) (TodoCreate.mk "Call Dad" "" MEDIUM false)]
    /\ run [CreateTodo (TodoCreate.mk "Call Dad" "" MEDIUM false);
            DeleteTodo (m + 1);
            CreateTodo (TodoCreate.mk "Call Dad" "" MEDIUM false)] all_todos
       = all_todos ++ [created (m + 1) (TodoCreate.mk "Call Dad" "" MEDIUM false)].
Proof.
  split; [exact all_todos_nonempty|]. split; [exact call_dad_within_bounds|].
  split; [exact call_dad_within_bounds|].
  exact (deleted_newest_id_is_reused (TodoCreate.mk "Call Dad" "" MEDIUM false)
           (TodoCreate.mk "Call Dad" "" MEDIUM false) all_todos
           all_todos_nonempty call_dad_within_bounds call_dad_within_bounds).
Defined.

Lemma ids_created_after (m : Z) (inputs : list TodoCreate.t) :
  ids (created_after m inputs) = consecutive m (List.length inputs).
Proof.
  revert m. induction inputs as [|todo rest IH]; simpl; intros m; trivial.
  f_equal. apply IH.
Qed.

(** X4: on a list whose greatest id is [m], a run of POST calls with
    inputs within the bounds appends one object per input, in the order of
    the calls and with the fields of the inputs, and their ids are
    [m + 1], [m + 2], ... without a gap. *)
Theorem creates_assign_consecutive_ids
  (inputs : list TodoCreate.t) (s : store) (m : Z) :
  py_max (ids s) = Return m ->
  Forall input_within_bounds inputs ->
  run (map CreateTodo inputs) s = s ++ created_after m inputs
  /\ ids (run (map CreateTodo inputs) s)
     = ids s ++ consecutive m (List.length inputs).
Proof.
  intros M B.
  assert (R : run (map CreateTodo inputs) s = s ++ created_after m inputs).
  { revert s m M. induction B as [|todo rest Bt _ IH]; intros s m M; simpl.
    - now rewrite app_nil_r.
    - unfold run in *. simpl. rewrite (create_todo_valid todo s m M Bt). simpl.
      rewrite (IH (s ++ [created (m + 1) todo]) (m + 1)).
      + now rewrite <- app_assoc.
      + now apply py_max_app_new. }
  split; [exact R|]. rewrite R, ids_app. f_equal. apply ids_created_after.
Qed.

Lemma creates_assign_consecutive_ids_witness :
  py_max (ids all_todos) = Return 5
  /\ Forall input_within_bounds
       [TodoCreate.mk "Call Dad" "" MEDIUM false;
        TodoCreate.mk "Call Dad" "" MEDIUM false]
  /\ run (map CreateTodo [TodoCreate.mk "Call Dad" "" MEDIUM false;
                          TodoCreate.mk "Call Dad" "" MEDIUM false]) all_todos
     = all_todos ++ created_after 5 [TodoCreate.mk "Call Dad" "" MEDIUM false;
                                     TodoCreate.mk "Call Dad" "" MEDIUM false]
  /\ ids (run (map CreateTodo [TodoCreate.mk "Call Dad" "" MEDIUM false;
                               TodoCreate.mk "Call Dad" "" MEDIUM false]) all_todos)
     = ids all_todos ++ consecutive 5 2.
Proof.
  assert (B : Forall input_within_bounds
                [TodoCreate.mk "Call Dad" "" MEDIUM false;
                 TodoCreate.mk "Call Dad" "" MEDIUM false]).
  { repeat constructor; apply call_dad_within_bounds. }
  split; [reflexivity|]. split; [exact B|].
  exact (creates_assign_consecutive_ids _ all_todos 5 eq_refl B).
Defined.


(** ** The length bounds along a run of calls *)

Lemma apply_update_within_bounds (u : TodoUpdate.t) (t : Todo.t) :
  patch_within_bounds u -> within_bounds t -> within_bounds (apply_update u t).
Proof.
  destruct u as [[n|] [d|] p c]; unfold patch_within_bounds, within_bounds, len;
    simpl; lia.
Qed.

Lemma update_todo_within_bounds (todo_id : Z) (u : TodoUpdate.t) (s : store) :
  patch_within_bounds u ->
  Forall within_bounds s ->
  Forall within_bounds (snd (update_todo todo_id u s)).
Proof.
  intros Bu Bs. destruct (in_dec Z.eq_dec todo_id (ids s)) as [H|H].
  - destruct (first_occurrence todo_id s H) as (l1 & t & l2 & -> & Hn & <-).
    rewrite update_todo_first by trivial. simpl.
    apply Forall_app in Bs. destruct Bs as [B1 B2].
    apply Forall_app. split; [exact B1|].
    inversion B2; subst. constructor; trivial.
    now apply apply_update_within_bounds.
  - now rewrite update_todo_absent.
Qed.

Lemma delete_todo_within_bounds (todo_id : Z) (s : store) :
  Forall within_bounds s -> Forall within_bounds (snd (delete_todo todo_id s)).
Proof.
  intros Bs. destruct (in_dec Z.eq_dec todo_id (ids s)) as [H|H].
  - destruct (first_occurrence todo_id s H) as (l1 & t & l2 & -> & Hn & <-).
    rewrite delete_todo_first by trivial. simpl.
    apply Forall_app in Bs. destruct Bs as [B1 B2].
    apply Forall_app. split; [exact B1 | now inversion B2].
  - now rewrite delete_todo_absent.
Qed.

Lemma after_within_bounds (c : call) (s : store) :
  call_within_bounds c ->
  Forall within_bounds s -> Forall within_bounds (after c s).
Proof.
  intros Bc Bs. destruct c as [i|n|todo|i u|i]; simpl.
  - unfold get_todo. now destruct (find_todo i s).
  - unfold get_todo_first_n. destruct (truthy n); [destruct n|]; exact Bs.
  - now apply create_todo_within_bounds.
  - now apply update_todo_within_bounds.
  - now apply delete_todo_within_bounds.
Qed.

(** X6: when every object of the list has a name of 2 to 150 and a
    description of at most 300 characters, this still holds after any run
    of calls of the five handlers in which the strings carried by the PUT
    patches are within these bounds; POST calls keep it for every input. *)
Theorem bounds_kept_by_calls (cs : list call) (s : store) :
  Forall within_bounds s ->
  Forall call_within_bounds cs ->
  Forall within_bounds (run cs s).
Proof.
  intros Bs Bc. revert s Bs.
  induction Bc as [|c cs Hc _ IH]; intros s Bs; [exact Bs|].
  unfold run in *. simpl. apply IH. now apply after_within_bounds.
Qed.

Lemma all_todos_within_bounds : Forall within_bounds all_todos.
Proof.
  repeat constructor; unfold len; simpl; lia.
Defined.

Lemma bounds_kept_by_calls_witness :
  Forall within_bounds all_todos
  /\ Forall call_within_bounds
       [CreateTodo (TodoCreate.mk "Call Dad" "" MEDIUM false);
        UpdateTodo 1 (TodoUpdate.mk (Some "Buy milk") None None (Some true));
        DeleteTodo 3]
  /\ Forall within_bounds
       (run [CreateTodo (TodoCreate.mk "Call Dad" "" MEDIUM false);
             UpdateTodo 1 (TodoUpdate.mk (Some "Buy milk") None None (Some true));
             DeleteTodo 3] all_todos).
Proof.
  assert (B : Forall call_within_bounds
                [CreateTodo (TodoCreate.mk "Call Dad" "" MEDIUM false);
                 UpdateTodo 1 (TodoUpdate.mk (Some "Buy milk") None None (Some true));
                 DeleteTodo 3]).
  { repeat constructor; unfold len; simpl; lia. }
  split; [exact all_todos_within_bounds|]. split; [exact B|].
  exact (bounds_kept_by_calls _ all_todos all_todos_within_bounds B).
Defined.

(** ** Reading and updating *)

(** X9: GET by an id that the list carries returns the first object with
    that id and leaves the list as it was. *)
Theorem get_todo_returns_first_match (todo_id : Z) (s : store) :
  In todo_id (ids s) ->
  exists l1 t l2,
    s = l1 ++ t :: l2
    /\ ~ In todo_id (ids l1)
    /\ Todo.todo_id t = todo_id
    /\ get_todo todo_id s = (Return t, s).
Proof.
  intros H.
  destruct (first_occurrence todo_id s H) as (l1 & t & l2 & -> & Hn & <-).
  exists l1, t, l2. repeat split; trivial.
  now apply get_todo_first.
Qed.

Lemma get_todo_returns_first_match_witness :
  In 3 (ids all_todos)
  /\ exists l1 t l2,
    all_todos = l1 ++ t :: l2
    /\ ~ In 3 (ids l1)
    /\ Todo.todo_id t = 3
    /\ get_todo 3 all_todos = (Return t, all_todos).
Proof.
  assert (H : In 3 (ids all_todos)) by (simpl; tauto).
  split; [exact H | exact (get_todo_returns_first_match 3 all_todos H)].
Defined.

Lemma apply_update_twice (u : TodoUpdate.t) (t : Todo.t) :
  apply_update u (apply_update u t) = apply_update u t.
Proof. destruct u as [[n|] [d|] [p|] [c|]]; reflexivity. Qed.

(** X7: PUT is idempotent.  Sending the same patch for the same id a
    second time gives the same reply and the same list as the first time,
    whether the id is in the list or not. *)
Theorem update_todo_idempotent (todo_id : Z) (u : TodoUpdate.t) (s : store) :
  update_todo todo_id u (snd (update_todo todo_id u s)) = update_todo todo_id u s.
Proof.
  destruct (in_dec Z.eq_dec todo_id (ids s)) as [H|H].
  - destruct (first_occurrence todo_id s H) as (l1 & t & l2 & -> & Hn & <-).
    rewrite update_todo_first by trivial. simpl.
    pose proof (update_todo_first u l1 l2 (apply_update u t) Hn) as E.
    change (Todo.todo_id (apply_update u t)) with (Todo.todo_id t) in E.
    rewrite E. now rewrite apply_update_twice.
  - rewrite (update_todo_absent todo_id u s H). simpl.
    now apply update_todo_absent.
Qed.

(** X8: when PUT returns, GET by the same id on the list it leaves
    returns the very object of the reply. *)
Theorem update_then_get (todo_id : Z) (u : TodoUpdate.t) (s s' : store) (r : reply) :
  update_todo todo_id u s = (Return r, s') ->
  get_todo todo_id s' = (Return (todo r), s').
Proof.
  intros U. destruct (in_dec Z.eq_dec todo_id (ids s)) as [H|H].
  - destruct (first_occurrence todo_id s H) as (l1 & t & l2 & -> & Hn & <-).
    rewrite update_todo_first in U by trivial.
    injection U as <- <-. simpl.
    now apply (get_todo_first l1 l2 (apply_update u t)).
  - rewrite update_todo_absent in U by trivial. discriminate.
Qed.

Lemma update_then_get_witness :
  update_todo 3 (TodoUpdate.mk None None None (Some false)) all_todos
  = (Return (mkReply "Todo updated successfully"
               (Todo.mk 3 "Sports" "Play football" HIGH false)),
     snd (update_todo 3 (TodoUpdate.mk None None None (Some false)) all_todos))
  /\ get_todo 3 (snd (update_todo 3 (TodoUpdate.mk None None None (Some false))
                        all_todos))
     = (Return (Todo.mk 3 "Sports" "Play football" HIGH false),
        snd (update_todo 3 (TodoUpdate.mk None None None (Some false)) all_todos)).
Proof.
  split; [reflexivity|].
  exact (update_then_get 3 (TodoUpdate.mk None None None (Some false)) all_todos
           _ (mkReply "Todo updated successfully"
                (Todo.mk 3 "Sports" "Play football" HIGH false)) eq_refl).
Defined.

(** ** Request bodies *)

(** Validation reads the input only at the names of the model's fields. *)
Lemma validate_model_ext (m : model) (data data' : pydict) :
  (forall name f, In (name, f) m -> lookup name data = lookup name data') ->
  validate_model m data = validate_model m data'.
Proof.
  induction m as [|[n g] m IH]; intros H; simpl; trivial.
  rewrite (H n g) by (simpl; tauto).
  rewrite IH; trivial.
  intros name f Hin. apply (H name f). simpl. tauto.
Qed.

(** X10: the id cannot be chosen by the client.  A [todo_id] sent in the
    body of a POST is ignored: the body validates to the same input, and
    the handler gives the same result and list, as without it. *)
Theorem create_body_id_ignored (v : pyval) (body : pydict) (s : store) :
  TodoCreate.new (("todo_id", v) :: body) = TodoCreate.new body
  /\ with_body TodoCreate.new create_todo (("todo_id", v) :: body) s
     = with_body TodoCreate.new create_todo body s.
Proof.
  assert (E : TodoCreate.new (("todo_id", v) :: body) = TodoCreate.new body).
  { unfold TodoCreate.new.
    rewrite (validate_model_ext TodoCreate.fields (("todo_id", v) :: body) body);
      trivial.
    intros name f Hin. simpl in Hin.
    destruct Hin as [[= <- _]|[[= <- _]|[[= <- _]|[[= <- _]|[]]]]]; reflexivity. }
  split; [exact E|]. unfold with_body. now rewrite E.
Qed.

(** X11: a POST body with a name and a description within the bounds and
    a priority given as one of the integers 1, 2, 3 is accepted without
    [completed]; the input then has [completed = False], the priority of
    that integer, and the strings as sent. *)
Theorem create_body_completed_defaults
  (body : pydict) (n d : string) (z : Z) (p : PriorityLevel) :
  lookup "todo_name" body = Some (PyStr n) ->
  lookup "todo_description" body = Some (PyStr d) ->
  lookup "priority" body = Some (PyInt z) ->
  lookup "completed" body = None ->
  2 <= len n <= 150 ->
  len d <= 300 ->
  PriorityLevel_value p = z ->
  TodoCreate.new body = Valid (TodoCreate.mk n d p false).
Proof.
  intros Hn Hd Hp Hc Bn Bd <-.
  unfold TodoCreate.new. cbn -[lookup len Z.ltb].
  rewrite Hn, Hd, Hp, Hc. cbn -[len Z.ltb].
  destruct (Z.ltb_spec (len n) 2); [lia|].
  destruct (Z.ltb_spec 150 (len n)); [lia|].
  destruct (Z.ltb_spec 300 (len d)); [lia|].
  destruct p; reflexivity.
Qed.

Lemma create_body_completed_defaults_witness :
  lookup "todo_name" [("todo_name", PyStr "Call Dad");
                      ("todo_description", PyStr ""); ("priority", PyInt 2)]
  = Some (PyStr "Call Dad")
  /\ 2 <= len "Call Dad" <= 150
  /\ len "" <= 300
  /\ PriorityLevel_value MEDIUM = 2
  /\ TodoCreate.new [("todo_name", PyStr "Call Dad");
                     ("todo_description", PyStr ""); ("priority", PyInt 2)]
     = Valid (TodoCreate.mk "Call Dad" "" MEDIUM false).
Proof.
  split; [reflexivity|].
  split; [exact (proj1 call_dad_within_bounds)|].
  split; [exact (proj2 call_dad_within_bounds)|].
  split; [reflexivity|].
  exact (create_body_completed_defaults
           [("todo_name", PyStr "Call Dad"); ("todo_description", PyStr "");
            ("priority", PyInt 2)]
           "Call Dad" "" 2 MEDIUM eq_refl eq_refl eq_refl eq_refl
           (proj1 call_dad_within_bounds) (proj2 call_dad_within_bounds) eq_refl).
Defined.

Lemma PriorityLevel_of_value_none (z : Z) :
  z < 1 \/ 3 < z -> PriorityLevel_of_value z = None.
Proof.
  intros H. unfold PriorityLevel_of_value.
  destruct (Z.eqb_spec z 3); [lia|].
  destruct (Z.eqb_spec z 2); [lia|].
  destruct (Z.eqb_spec z 1); [lia|]. reflexivity.
Qed.

(** X13: the enum is closed.  A POST body whose priority is an integer
    below 1 or above 3 is refused with an error on [priority], and the
    handler is not run: the list is unchanged. *)
Theorem create_priority_out_of_range_refused (body : pydict) (z : Z) :
  lookup "priority" body = Some (PyInt z) ->
  z < 1 \/ 3 < z ->
  exists e,
    TodoCreate.new body = Invalid e
    /\ In "priority" (map fst e)
    /\ forall s : store,
         with_body TodoCreate.new create_todo body s
         = (Raise (RequestValidationError e), s).
Proof.
  intros H Hz.
  destruct (validate_model_field_error "priority"
              (Priority, Field [] [("defaul", PyPriority LOW);
                                   ("description",
                                    PyStr "Priority level of the todo task")])
              wrong_type TodoCreate.fields body) as (e & V & Hin).
  - simpl. tauto.
  - rewrite H. unfold validate_field. cbn [fst validate_annotation].
    now rewrite PriorityLevel_of_value_none.
  - exists e. unfold with_body, TodoCreate.new. rewrite V.
    split; [reflexivity|]. split; [|reflexivity].
    apply (in_map fst) in Hin. exact Hin.
Qed.

Lemma create_priority_out_of_range_refused_witness :
  lookup "priority" [("todo_name", PyStr "Call Dad");
                     ("todo_description", PyStr ""); ("priority", PyInt 4)]
  = Some (PyInt 4)
  /\ (4 < 1 \/ 3 < 4)
  /\ exists e,
    TodoCreate.new [("todo_name", PyStr "Call Dad");
                    ("todo_description", PyStr ""); ("priority", PyInt 4)]
    = Invalid e
    /\ In "priority" (map fst e)
    /\ forall s : store,
         with_body TodoCreate.new create_todo
           [("todo_name", PyStr "Call Dad"); ("todo_description", PyStr "");
            ("priority", PyInt 4)] s
         = (Raise (RequestValidationError e), s).
Proof.
  assert (H : 4 < 1 \/ 3 < 4) by (right; lia).
  split; [reflexivity|]. split; [exact H|].
  exact (create_priority_out_of_range_refused
           [("todo_name", PyStr "Call Dad"); ("todo_description", PyStr "");
            ("priority", PyInt 4)] 4 eq_refl H).
Defined.

(** X14: a POST body whose name is a string of fewer than 2 or more than
    150 characters, or whose description is a string of more than 300
    characters, is refused, and the handler is not run: the list is
    unchanged. *)
Theorem create_out_of_bounds_refused (body : pydict) :
  (exists n, lookup "todo_name" body = Some (PyStr n)
             /\ (len n < 2 \/ 150 < len n))
  \/ (exists d, lookup "todo_description" body = Some (PyStr d) /\ 300 < len d) ->
  exists e,
    TodoCreate.new body = Invalid e
    /\ forall s : store,
         with_body TodoCreate.new create_todo body s
         = (Raise (RequestValidationError e), s).
Proof.
  intros H.
  assert (V : exists e, validate_model TodoCreate.fields body = Invalid e).
  { destruct H as [(n & Hn & B)|(d & Hd & B)].
    - destruct (validate_model_field_error "todo_name"
                  (Str, Field [PyEllipsis]
                          [("min_length", PyInt 2); ("max_length", PyInt 150);
                           ("description", PyStr "Name of the todo task")])
                  (if len n <? 2 then string_too_short else string_too_long)
                  TodoCreate.fields body) as (e & V & _).
      + simpl. tauto.
      + rewrite Hn. unfold validate_field. cbn -[len Z.ltb].
        destruct (Z.ltb_spec (len n) 2); trivial.
        destruct (Z.ltb_spec 150 (len n)); [trivial | lia].
      + now exists e.
    - destruct (validate_model_field_error "todo_description"
                  (Str, Field [PyEllipsis]
                          [("max_length", PyInt 300);
                           ("description", PyStr "Description of the todo task")])
                  string_too_long TodoCreate.fields body) as (e & V & _).
      + simpl. tauto.
      + rewrite Hd. unfold validate_field. cbn -[len Z.ltb].
        destruct (Z.ltb_spec 300 (len d)); [trivial | lia].
      + now exists e. }
  destruct V as [e V]. exists e.
  unfold with_body, TodoCreate.new. rewrite V. now split.
Qed.

Lemma create_out_of_bounds_refused_witness :
  ((exists n, lookup "todo_name" [("todo_name", PyStr "x");
                                  ("todo_description", PyStr "");
                                  ("priority", PyInt 2)] = Some (PyStr n)
              /\ (len n < 2 \/ 150 < len n))
   \/ (exists d, lookup "todo_description" [("todo_name", PyStr "x");
                                            ("todo_description", PyStr "");
                                            ("priority", PyInt 2)] = Some (PyStr d)
                 /\ 300 < len d))
  /\ exists e,
    TodoCreate.new [("todo_name", PyStr "x"); ("todo_description", PyStr "");
                    ("priority", PyInt 2)] = Invalid e
    /\ forall s : store,
         with_body TodoCreate.new create_todo
           [("todo_name", PyStr "x"); ("todo_description", PyStr "");
            ("priority", PyInt 2)] s
         = (Raise (RequestValidationError e), s).
Proof.
  assert (H : (exists n, lookup "todo_name" [("todo_name", PyStr "x");
                                             ("todo_description", PyStr "");
                                             ("priority", PyInt 2)]
                         = Some (PyStr n)
                         /\ (len n < 2 \/ 150 < len n))
              \/ (exists d, lookup "todo_description"
                              [("todo_name", PyStr "x");
                               ("todo_description", PyStr "");
                               ("priority", PyInt 2)] = Some (PyStr d)
                            /\ 300 < len d)).
  { left. exists "x". split; [reflexivity|]. left. unfold len. simpl. lia. }
  split; [exact H | exact (create_out_of_bounds_refused _ H)].
Defined.

Lemma apply_update_nothing (t : Todo.t) :
  apply_update (TodoUpdate.mk None None None None) t = t.
Proof. now destruct t. Qed.

Lemma update_todo_nothing (todo_id : Z) (s : store) :
  snd (update_todo todo_id (TodoUpdate.mk None None None None) s) = s.
Proof.
  destruct (in_dec Z.eq_dec todo_id (ids s)) as [H|H].
  - destruct (first_occurrence todo_id s H) as (l1 & t & l2 & -> & Hn & <-).
    rewrite update_todo_first by trivial. simpl.
    now rewrite apply_update_nothing.
  - now rewrite update_todo_absent.
Qed.

(** X12: in the body of a PUT, [null] counts as "not given".  A body in
    which each of the four fields is left out or [null] validates to the
    patch without any value, and the PUT leaves the list as it was: no
    field can be reset through a [null]. *)
Theorem update_body_nulls_change_nothing (todo_id : Z) (body : pydict) (s : store) :
  null_or_absent "todo_name" body ->
  null_or_absent "todo_description" body ->
  null_or_absent "priority" body ->
  null_or_absent "completed" body ->
  TodoUpdate.new body = Valid (TodoUpdate.mk None None None None)
  /\ snd (with_body TodoUpdate.new (update_todo todo_id) body s) = s.
Proof.
  intros H1 H2 H3 H4.
  assert (E : TodoUpdate.new body = Valid (TodoUpdate.mk None None None None)).
  { unfold TodoUpdate.new. cbn -[lookup].
    destruct H1 as [-> | ->], H2 as [-> | ->], H3 as [-> | ->], H4 as [-> | ->];
      reflexivity. }
  split; [exact E|]. unfold with_body. rewrite E. apply update_todo_nothing.
Qed.

Lemma update_body_nulls_change_nothing_witness :
  null_or_absent "todo_name" [("todo_name", PyNone); ("completed", PyNone)]
  /\ null_or_absent "todo_description" [("todo_name", PyNone); ("completed", PyNone)]
  /\ null_or_absent "priority" [("todo_name", PyNone); ("completed", PyNone)]
  /\ null_or_absent "completed" [("todo_name", PyNone); ("completed", PyNone)]
  /\ TodoUpdate.new [("todo_name", PyNone); ("completed", PyNone)]
     = Valid (TodoUpdate.mk None None None None)
  /\ snd (with_body TodoUpdate.new (update_todo 3)
            [("todo_name", PyNone); ("completed", PyNone)] all_todos)
     = all_todos.
Proof.
  assert (H1 : null_or_absent "todo_name" [("todo_name", PyNone); ("completed", PyNone)])
    by (right; reflexivity).
  assert (H2 : null_or_absent "todo_description"
                 [("todo_name", PyNone); ("completed", PyNone)])
    by (left; reflexivity).
  assert (H3 : null_or_absent "priority" [("todo_name", PyNone); ("completed", PyNone)])
    by (left; reflexivity).
  assert (H4 : null_or_absent "completed" [("todo_name", PyNone); ("completed", PyNone)])
    by (right; reflexivity).
  split; [exact H1|]. split; [exact H2|]. split; [exact H3|]. split; [exact H4|].
  exact (update_body_nulls_change_nothing 3 _ all_todos H1 H2 H3 H4).
Defined.

(** ** Calls on one id and reads of another *)

Lemma find_todo_app (todo_id : Z) (l1 l2 : store) :
  find_todo todo_id (l1 ++ l2)
  = match find_todo todo_id l1 with
    | Some t => Some t
    | None => find_todo todo_id l2
    end.
Proof.
  induction l1 as [|a l1 IH]; simpl; trivial.
  now destruct (Todo.todo_id a =? todo_id).
Qed.

Lemma find_todo_skip (todo_id : Z) (t : Todo.t) (l : store) :
  Todo.todo_id t <> todo_id -> find_todo todo_id (t :: l) = find_todo todo_id l.
Proof.
  intros H. simpl. now destruct (Z.eqb_spec (Todo.todo_id t) todo_id).
Qed.

(** X15: PUT and DELETE on one id do not change what GET returns for any
    other id. *)
Theorem other_ids_read_the_same
  (todo_id other : Z) (u : TodoUpdate.t) (s : store) :
  other <> todo_id ->
  fst (get_todo other (snd (update_todo todo_id u s))) = fst (get_todo other s)
  /\ fst (get_todo other (snd (delete_todo todo_id s))) = fst (get_todo other s).
Proof.
  intros Hne. destruct (in_dec Z.eq_dec todo_id (ids s)) as [H|H].
  - destruct (first_occurrence todo_id s H) as (l1 & t & l2 & -> & Hn & <-).
    rewrite update_todo_first, delete_todo_first by trivial. simpl.
    unfold get_todo. rewrite !find_todo_app.
    rewrite (find_todo_skip other t l2) by congruence.
    rewrite (find_todo_skip other (apply_update u t) l2) by (simpl; congruence).
    destruct (find_todo other l1); [|destruct (find_todo other l2)];
      split; reflexivity.
  - rewrite update_todo_absent, delete_todo_absent by trivial. now split.
Qed.

Lemma other_ids_read_the_same_witness :
  4 <> 3
  /\ fst (get_todo 4 (snd (update_todo 3 (TodoUpdate.mk None None None (Some false))
                             all_todos)))
     = fst (get_todo 4 all_todos)
  /\ fst (get_todo 4 (snd (delete_todo 3 all_todos))) = fst (get_todo 4 all_todos).
Proof.
  assert (H : 4 <> 3) by discriminate.
  split; [exact H|].
  exact (other_ids_read_the_same 3 4 (TodoUpdate.mk None None None (Some false))
           all_todos H).
Defined.

(** X16: POST never changes what GET returns for an id that the list
    already carries, whatever the input. *)
Theorem create_keeps_existing_reads (todo : TodoCreate.t) (todo_id : Z) (s : store) :
  In todo_id (ids s) ->
  fst (get_todo todo_id (snd (create_todo todo s))) = fst (get_todo todo_id s).
Proof.
  intros H.
  destruct (create_todo_cases todo s) as [[_ ->]|[[e ->]|(m & _ & _ & ->)]];
    trivial.
  simpl. unfold get_todo. rewrite find_todo_app.
  destruct (first_occurrence todo_id s H) as (l1 & t & l2 & -> & Hn & Ht).
  now rewrite (find_todo_first todo_id l1 l2 t Hn Ht).
Qed.

Lemma create_keeps_existing_reads_witness :
  In 3 (ids all_todos)
  /\ fst (get_todo 3 (snd (create_todo (TodoCreate.mk "Call Dad" "" MEDIUM false)
                             all_todos)))
     = fst (get_todo 3 all_todos).
Proof.
  assert (H : In 3 (ids all_todos)) by (simpl; tauto).
  split; [exact H|].
  exact (create_keeps_existing_reads (TodoCreate.mk "Call Dad" "" MEDIUM false)
           3 all_todos H).
Defined.
